(** * setup.py of github-repos-clone: the packaging script, embedded

    The script does two things: it computes the variable
    [long_description] from the optional file README.md, and it calls
    [setup] with a fixed set of keyword arguments, two of which are not
    literals ([long_description] and [packages=find_packages()]).

    Python text ([str]) is represented by its UTF-8 encoding, as a Rocq
    [string]; file contents are bytes. *)

From Stdlib Require Import Strings.String Strings.Ascii Strings.Byte Lists.List NArith Lia.
From stdpp Require Import gmap strings list.

Local Open Scope string_scope.
Local Open Scope list_scope.
Set Warnings "-register-all".

(** ** Exceptions: the built-in classes the script can meet *)

Module Exn.

Inductive class : Type :=
| BaseException
| Exception
| KeyboardInterrupt
| MemoryError
| OSError
| FileNotFoundError
| PermissionError
| IsADirectoryError
| ValueError
| UnicodeError
| UnicodeDecodeError.

(** The direct base class, as in the built-in hierarchy. *)
Definition base (c : class) : option class :=
  match c with
  | BaseException => None
  | Exception => Some BaseException
  | KeyboardInterrupt => Some BaseException
  | MemoryError => Some Exception
  | OSError => Some Exception
  | FileNotFoundError => Some OSError
  | PermissionError => Some OSError
  | IsADirectoryError => Some OSError
  | ValueError => Some Exception
  | UnicodeError => Some ValueError
  | UnicodeDecodeError => Some UnicodeError
  end.

#[global] Instance class_eq_dec : EqDecision class.
Proof. solve_decision. Defined.

(** The chain of a class and its bases, followed for [depth] steps. *)
Fixpoint bases_upto (depth : nat) (c : class) : list class :=
  c :: match depth with
       | O => []
       | S d => match base c with
                | Some b => bases_upto d b
                | None => []
                end
       end.

(** No chain of the hierarchy is longer than five classes. *)
Definition mro (c : class) : list class := bases_upto 4 c.

(** [issubclass c d]: what an [except d] clause tests on an exception of
    class [c]. *)
Definition issubclass (c d : class) : bool :=
  existsb (fun b => bool_decide (b = d)) (mro c).

End Exn.

(** ** The working directory *)

(** Entries that [open] cannot open and that hold nothing the script
    can see: a symbolic link that leads back to itself, a socket, a
    directory without any permission for the user. *)
Inductive special : Type :=
| SymlinkLoop
| Socket
| LockedDirectory.

(** A directory entry is a regular file (with its read permission and
    its bytes), a directory the user may list and search (with its
    entries, in listing order) or a special entry. A symbolic link that leads
    nowhere counts as no entry. *)
Inductive node : Type :=
| File (readable : bool) (data : list byte)
| Dir (entries : list (string * node))
| Other (kind : special).

Definition directory : Type := list (string * node).

Fixpoint lookup_entry (name : string) (es : directory) : option node :=
  match es with
  | [] => None
  | (n, x) :: rest => if String.eqb n name then Some x else lookup_entry name rest
  end.

(** ** What the script does to the file system *)

Inductive event : Type :=
| EvOpen (path : string)
| EvRead (path : string)
| EvClose (path : string)
| EvWalk (root : string).

(** ** The monad of script fragments

    A fragment runs in a working directory, extends the trace of events
    and either returns a value or raises. *)

Inductive outcome (A : Type) : Type :=
| Return (a : A)
| Raise (e : Exn.class).
Arguments Return {A} a.
Arguments Raise {A} e.

Definition Py (A : Type) : Type := directory -> list event -> outcome A * list event.

Definition ret {A} (a : A) : Py A := fun _ t => (Return a, t).

Definition bind {A B} (m : Py A) (k : A -> Py B) : Py B :=
  fun cwd t =>
    match m cwd t with
    | (Return a, t') => k a cwd t'
    | (Raise e, t') => (Raise e, t')
    end.

Definition raise {A} (e : Exn.class) : Py A := fun _ t => (Raise e, t).

Definition emit (ev : event) : Py unit := fun _ t => (Return tt, t ++ [ev]).

Definition getcwd : Py directory := fun cwd t => (Return cwd, t).

Declare Scope py_scope.
Delimit Scope py_scope with py.
Notation "x <- m ;; k" := (bind m (fun x => k))
  (at level 100, m at next level, right associativity) : py_scope.
Notation "m ;; k" := (bind m (fun _ => k))
  (at level 100, right associativity) : py_scope.
Local Open Scope py_scope.

(** [try: body / except cls: handler]. *)
Definition try_except {A} (body : Py A) (cls : Exn.class) (handler : Py A) : Py A :=
  fun cwd t =>
    match body cwd t with
    | (Return a, t') => (Return a, t')
    | (Raise e, t') =>
        if Exn.issubclass e cls then handler cwd t' else (Raise e, t')
    end.

(** [body], then [cleanup] whatever [body] did; the outcome of [body]
    stands unless [cleanup] raises. *)
Definition finally {A} (body : Py A) (cleanup : Py unit) : Py A :=
  fun cwd t =>
    match body cwd t with
    | (r, t') =>
        match cleanup cwd t' with
        | (Return _, t'') => (r, t'')
        | (Raise e, t'') => (Raise e, t'')
        end
    end.

(** ** Text mode: the UTF-8 codec and universal newlines *)

Definition between (lo hi : N) (b : byte) : bool :=
  ((lo <=? Byte.to_N b) && (Byte.to_N b <=? hi))%N.

Definition continuation (b : byte) : bool := between 0x80 0xBF b.

(** The second byte of a three-byte sequence: no overlong form after
    E0, no surrogate after ED. *)
Definition second_of_three (b0 b1 : byte) : bool :=
  if between 0xE0 0xE0 b0 then between 0xA0 0xBF b1
  else if between 0xED 0xED b0 then between 0x80 0x9F b1
  else continuation b1.

(** The second byte of a four-byte sequence: no overlong form after F0,
    nothing above U+10FFFF after F4. *)
Definition second_of_four (b0 b1 : byte) : bool :=
  if between 0xF0 0xF0 b0 then between 0x90 0xBF b1
  else if between 0xF4 0xF4 b0 then between 0x80 0x8F b1
  else continuation b1.

(** Well-formed UTF-8, the byte sequences the strict codec accepts. *)
Fixpoint utf8_valid (bs : list byte) : bool :=
  match bs with
  | [] => true
  | b0 :: r0 =>
      if between 0x00 0x7F b0 then utf8_valid r0 else
      match r0 with
      | [] => false
      | b1 :: r1 =>
          if between 0xC2 0xDF b0 then continuation b1 && utf8_valid r1 else
          match r1 with
          | [] => false
          | b2 :: r2 =>
              if between 0xE0 0xEF b0
              then second_of_three b0 b1 && continuation b2 && utf8_valid r2
              else
                match r2 with
                | [] => false
                | b3 :: r3 =>
                    between 0xF0 0xF4 b0 && second_of_four b0 b1
                    && continuation b2 && continuation b3 && utf8_valid r3
                end
          end
      end
  end.

(** Universal newlines (the default of [open] in text mode): CR LF and
    a lone CR both come out as LF. *)
Fixpoint universal_newlines (bs : list byte) : list byte :=
  match bs with
  | [] => []
  | b :: rest =>
      if Byte.eqb b x0d then
        x0a :: match rest with
               | [] => []
               | b' :: rest' =>
                   if Byte.eqb b' x0a then universal_newlines rest'
                   else universal_newlines rest
               end
      else b :: universal_newlines rest
  end.

(** The text of a file read in mode "r" with encoding "utf-8": [None]
    when the bytes are not UTF-8. *)
Definition decode (data : list byte) : option string :=
  if utf8_valid data
  then Some (string_of_list_byte (universal_newlines data))
  else None.

(** ** Files *)

Record file_object : Type := { fo_name : string; fo_raw : list byte }.

(** The exception for the error of the system call on a special entry:
    ELOOP on a looping link and ENXIO on a socket are a plain OSError,
    EACCES on a locked directory is a PermissionError. *)
Definition open_error (kind : special) : Exn.class :=
  match kind with
  | SymlinkLoop => Exn.OSError
  | Socket => Exn.OSError
  | LockedDirectory => Exn.PermissionError
  end.

(** [open(file, "r", encoding="utf-8")], the one way the script opens a
    file; [file] is a name in the working directory. *)
Definition open (file : string) : Py file_object :=
  emit (EvOpen file);;
  cwd <- getcwd;;
  match lookup_entry file cwd with
  | None => raise Exn.FileNotFoundError
  | Some (Dir _) => raise Exn.IsADirectoryError
  | Some (Other kind) => raise (open_error kind)
  | Some (File false _) => raise Exn.PermissionError
  | Some (File true data) => ret {| fo_name := file; fo_raw := data |}
  end.

(** [fh.read()]: the whole file, decoded. *)
Definition read (fh : file_object) : Py string :=
  emit (EvRead (fo_name fh));;
  match decode (fo_raw fh) with
  | Some text => ret text
  | None => raise Exn.UnicodeDecodeError
  end.

Definition close (fh : file_object) : Py unit := emit (EvClose (fo_name fh)).

(** [with open(file, ...) as fh: body]: the file is closed on the way
    out, also when [body] raises. *)
Definition with_open {A} (file : string) (body : file_object -> Py A) : Py A :=
  fh <- open file;;
  finally (body fh) (close fh).

(** ** setuptools.find_packages

    A library routine outside the repository, modelled after its
    documented behaviour with the default arguments: starting from the
    working directory, every directory whose name has no dot and that
    holds a file __init__.py is a package, and only packages are
    searched further. Names are dotted paths; a directory's packages
    come before those of its subdirectories. Two patterns are always
    excluded from the result, ez_setup and *__pycache__; a package that
    matches one is left out, its subpackages are still looked for. *)

Definition has_dot (name : string) : bool :=
  existsb (Ascii.eqb ".") (list_ascii_of_string name).

Definition looks_like_package (n : node) : bool :=
  match n with
  | File _ _ => false
  | Other _ => false
  | Dir es =>
      match lookup_entry "__init__.py" es with
      | Some (File _ _) => true
      | _ => false
      end
  end.

(** [s] ends with [suffix]. *)
Fixpoint ends_with (suffix s : string) : bool :=
  String.eqb s suffix
  || match s with
     | EmptyString => false
     | String _ rest => ends_with suffix rest
     end.

(** The dotted names the finder never reports: those that match
    ez_setup or *__pycache__. *)
Definition always_excluded (package : string) : bool :=
  String.eqb package "ez_setup" || ends_with "__pycache__" package.

Definition is_package (name : string) (n : node) : bool :=
  negb (has_dot name) && looks_like_package n.

Fixpoint packages_in (prefix : string) (n : node) {struct n} : list string :=
  match n with
  | File _ _ => []
  | Other _ => []
  | Dir es =>
      (fix here (es : list (string * node)) : list string :=
         match es with
         | [] => []
         | (name, child) :: rest =>
             (if is_package name child && negb (always_excluded (prefix +:+ name))
              then [prefix +:+ name]
              else [])
               ++ here rest
         end) es
      ++
      (fix below (es : list (string * node)) : list string :=
         match es with
         | [] => []
         | (name, child) :: rest =>
             (if is_package name child
              then packages_in (prefix +:+ name +:+ ".") child
              else [])
               ++ below rest
         end) es
  end.

Definition find_packages : Py (list string) :=
  emit (EvWalk ".");;
  cwd <- getcwd;;
  ret (packages_in "" (Dir cwd)).

(** ** The keyword arguments of [setup] *)

Module Kwargs.

Record t : Type := {
  name : string;
  version : string;
  author : string;
  description : string;
  long_description : string;
  long_description_content_type : string;
  url : string;
  py_modules : list string;
  packages : list string;
  python_requires : string;
  install_requires : list string;
  entry_points : gmap string (list string);
  classifiers : list string
}.

(** The scripts registered under the group "console_scripts". *)
Definition console_scripts (kw : t) : list string :=
  default [] (entry_points kw !! "console_scripts").

End Kwargs.

(** The call [setup(...)] as written: every argument is a literal but
    [long_description] (the variable) and [packages] (the value of
    [find_packages()]). *)
Definition setup_arguments (long_description : string) (packages : list string)
  : Kwargs.t :=
  {| Kwargs.name := "github-repos-clone";
     Kwargs.version := "1.0.0";
     Kwargs.author := "qiao-925";
     Kwargs.description := "GitHub 仓库批量分类克隆脚本";
     Kwargs.long_description := long_description;
     Kwargs.long_description_content_type := "text/markdown";
     Kwargs.url := "https://github.com/qiao-925/github-repos-batch-sync-script";
     Kwargs.py_modules := ["main"];
     Kwargs.packages := packages;
     Kwargs.python_requires := ">=3.7";
     Kwargs.install_requires := ["colorama>=0.4.6"];
     Kwargs.entry_points := {[ "console_scripts" := ["repos=main:main"] ]};
     Kwargs.classifiers :=
       [ "Development Status :: 4 - Beta";
         "Intended Audience :: Developers";
         "Topic :: Software Development :: Version Control :: Git";
         "Programming Language :: Python :: 3";
         "Programming Language :: Python :: 3.7";
         "Programming Language :: Python :: 3.8";
         "Programming Language :: Python :: 3.9";
         "Programming Language :: Python :: 3.10";
         "Programming Language :: Python :: 3.11";
         "Programming Language :: Python :: 3.12" ] |}.

(** ** The script *)

(** Lines 14-18: the variable [long_description]. *)
Definition long_description : Py string :=
  try_except
    (with_open "README.md" (fun fh => read fh))
    Exn.FileNotFoundError
    (ret "GitHub 仓库批量分类克隆脚本").

(** The whole script: a returned value is the keyword arguments [setup]
    is called with; a raised exception ends the script before the
    call. *)
Definition setup_py : Py Kwargs.t :=
  description <- long_description;;
  packages <- find_packages;;
  ret (setup_arguments description packages).

(** A run from an empty trace. *)
Definition result {A} (m : Py A) (cwd : directory) : outcome A := fst (m cwd []).
Definition trace {A} (m : Py A) (cwd : directory) : list event := snd (m cwd []).

(** The files a trace opens or reads. *)
Definition files_read (t : list event) : list string :=
  flat_map (fun ev => match ev with
                      | EvOpen p | EvRead p => [p]
                      | _ => []
                      end) t.

(** ** Reading the packaging strings

    What the argument strings mean to the packaging tools, as far as
    the script uses their syntax. *)

(** The text before and after the first [sep]. *)
Fixpoint split_on (sep : ascii) (s : string) : option (string * string) :=
  match s with
  | EmptyString => None
  | String c rest =>
      if Ascii.eqb c sep then Some (EmptyString, rest)
      else match split_on sep rest with
           | Some (before, after) => Some (String c before, after)
           | None => None
           end
  end.

Record entry_point : Type := { ep_name : string; ep_module : string; ep_attr : string }.

(** An entry point in the form name=module:attr. *)
Definition parse_entry_point (spec : string) : option entry_point :=
  match split_on "=" spec with
  | Some (name, target) =>
      match split_on ":" target with
      | Some (module, attr) =>
          Some {| ep_name := name; ep_module := module; ep_attr := attr |}
      | None => None
      end
  | None => None
  end.

Definition is_name_char (c : ascii) : bool :=
  let n := N_of_ascii c in
  ((48 <=? n) && (n <=? 57) || (65 <=? n) && (n <=? 90) || (97 <=? n) && (n <=? 122)
   || (n =? 45) || (n =? 46) || (n =? 95))%N.

(** The project a requirement names: its leading run of name
    characters. *)
Fixpoint requirement_name (req : string) : string :=
  match req with
  | EmptyString => EmptyString
  | String c rest =>
      if is_name_char c then String c (requirement_name rest) else EmptyString
  end.

Definition digit (c : ascii) : option N :=
  let n := N_of_ascii c in
  if ((48 <=? n) && (n <=? 57))%N then Some (n - 48)%N else None.

(** A release number such as 3.7 as its segments; [cur] is the segment
    being read. *)
Fixpoint release_of (s : string) (cur : option N) : option (list N) :=
  match s with
  | EmptyString => match cur with Some n => Some [n] | None => None end
  | String c rest =>
      if Ascii.eqb c "." then
        match cur with
        | Some n => option_map (cons n) (release_of rest None)
        | None => None
        end
      else
        match digit c with
        | Some d => release_of rest (Some (10 * default 0 cur + d))%N
        | None => None
        end
  end.

(** Releases compare segment by segment, a missing segment counting as
    zero: [release_leb a b] is [a <= b]. *)
Fixpoint release_leb (a b : list N) : bool :=
  match a, b with
  | [], _ => true
  | x :: a', [] => (x =? 0)%N && release_leb a' []
  | x :: a', y :: b' =>
      if (x <? y)%N then true
      else if (y <? x)%N then false
      else release_leb a' b'
  end.

(** The lower bound of a specifier of the form >=release. *)
Definition minimum_release (spec : string) : option (list N) :=
  match spec with
  | String ">" (String "=" v) => release_of v None
  | _ => None
  end.

(** Whether the specifier admits the interpreter release [v]. *)
Definition admits (spec : string) (v : list N) : bool :=
  match minimum_release spec with
  | Some m => release_leb m v
  | None => false
  end.

(** ** Working directories used as examples *)

Definition readme_bytes : list byte :=
  list_byte_of_string ("# repos" +:+ String "013" (String "010" "repos clone")).

(** Nothing but a README. *)
Definition only_readme : directory := [("README.md", File true readme_bytes)].

(** The same README next to a package directory. *)
Definition readme_and_package : directory :=
  [("README.md", File true readme_bytes);
   ("core", Dir [("__init__.py", File true [])])].

(** A README the user may not read. *)
Definition denied_readme : directory := [("README.md", File false readme_bytes)].

(** A README that is not UTF-8 (a lone byte FF). *)
Definition latin_readme : directory := [("README.md", File true [xff])].

(** A checkout without a README. *)
Definition no_readme : directory := [("main.py", File true [])].

(** The README behind another file that is not a package. *)
Definition readme_and_notes : directory :=
  [("notes.txt", File true []); ("README.md", File true readme_bytes)].

(** The text of the example README: the CR LF of the file is one LF. *)
Definition readme_text : string := "# repos" +:+ String "010" "repos clone".

(** Two working directories agree on README.md: it is absent from
    both, or it is the same entry, bytes and permission, in both. *)
Definition agree_on_readme (w1 w2 : directory) : Prop :=
  lookup_entry "README.md" w1 = lookup_entry "README.md" w2.

(** ** Parts of a directory and of the classifiers *)

(** The entries of a directory other than those called [name]. *)
Definition without (name : string) (es : directory) : directory :=
  List.filter (fun e => negb (String.eqb (fst e) name)) es.

(** [s] without its prefix [p], if it starts with it. *)
Fixpoint strip_prefix (p s : string) : option string :=
  match p with
  | EmptyString => Some s
  | String a p' =>
      match s with
      | EmptyString => None
      | String b s' => if Ascii.eqb a b then strip_prefix p' s' else None
      end
  end.

(** The Python release a trove classifier names, when it names one. *)
Definition classifier_release (c : string) : option (list N) :=
  match strip_prefix "Programming Language :: Python :: " c with
  | Some v => release_of v None
  | None => None
  end.

(** A README with a carriage return that is not UTF-8 either. *)
Definition broken_readme : directory := [("README.md", File true [x0d; xc3])].

(** * Properties *)

(** ** Exceptions and control flow *)

Module ExnFacts.

Lemma issubclass_refl (c : Exn.class) : Exn.issubclass c c = true.
Proof. destruct c; reflexivity. Qed.

(** Nothing derives from FileNotFoundError: the clause
    [except FileNotFoundError] takes that class and no other. *)
Lemma caught_by_FileNotFoundError (e : Exn.class) :
  Exn.issubclass e Exn.FileNotFoundError = true <-> e = Exn.FileNotFoundError.
Proof.
  split.
  - destruct e; cbv; congruence.
  - intros ->. reflexivity.
Qed.

Lemma not_caught_by_FileNotFoundError (e : Exn.class) :
  e <> Exn.FileNotFoundError -> Exn.issubclass e Exn.FileNotFoundError = false.
Proof.
  intros Hne. destruct (Exn.issubclass e Exn.FileNotFoundError) eqn:E; [|reflexivity].
  apply caught_by_FileNotFoundError in E. contradiction.
Qed.

End ExnFacts.

Section Control.
Context {A : Type}.
Variables (body handler : Py A) (cls : Exn.class).
Variables (cwd : directory) (t t' : list event).

Lemma try_except_return (a : A) :
  body cwd t = (Return a, t') ->
  try_except body cls handler cwd t = (Return a, t').
Proof. unfold try_except. intros ->. reflexivity. Qed.

Lemma try_except_caught (e : Exn.class) :
  body cwd t = (Raise e, t') ->
  Exn.issubclass e cls = true ->
  try_except body cls handler cwd t = handler cwd t'.
Proof. unfold try_except. intros -> ->. reflexivity. Qed.

Lemma try_except_uncaught (e : Exn.class) :
  body cwd t = (Raise e, t') ->
  Exn.issubclass e cls = false ->
  try_except body cls handler cwd t = (Raise e, t').
Proof. unfold try_except. intros -> ->. reflexivity. Qed.
End Control.

(** ** The guarded block, without its guard *)

Section ReadReadme.
Variables (cwd : directory) (t : list event).

Local Abbreviation body := (with_open "README.md" (fun fh => read fh)).

Lemma body_absent :
  lookup_entry "README.md" cwd = None ->
  body cwd t = (Raise Exn.FileNotFoundError, t ++ [EvOpen "README.md"]).
Proof.
  intros H. unfold with_open, open, bind, emit, getcwd, raise.
  rewrite H. reflexivity.
Qed.

Lemma body_directory (es : list (string * node)) :
  lookup_entry "README.md" cwd = Some (Dir es) ->
  body cwd t = (Raise Exn.IsADirectoryError, t ++ [EvOpen "README.md"]).
Proof.
  intros H. unfold with_open, open, bind, emit, getcwd, raise.
  rewrite H. reflexivity.
Qed.

Lemma body_special (kind : special) :
lookup_entry "README.md" cwd = Some (Other kind) ->
body cwd t = (Raise (open_error kind), t ++ [EvOpen "README.md"]).
Proof.
intros H. unfold with_open, open, bind, emit, getcwd, raise.
rewrite H. reflexivity.
Qed.

Lemma body_denied (data : list byte) :
  lookup_entry "README.md" cwd = Some (File false data) ->
  body cwd t = (Raise Exn.PermissionError, t ++ [EvOpen "README.md"]).
Proof.
  intros H. unfold with_open, open, bind, emit, getcwd, raise.
  rewrite H. reflexivity.
Qed.

Lemma body_text (data : list byte) (text : string) :
  lookup_entry "README.md" cwd = Some (File true data) ->
  decode data = Some text ->
  body cwd t =
    (Return text,
     t ++ [EvOpen "README.md"; EvRead "README.md"; EvClose "README.md"]).
Proof.
  intros H D.
  unfold with_open, open, finally, read, close, bind, emit, getcwd, ret.
  rewrite H. cbn. rewrite D. cbn.
  rewrite <- !app_assoc. reflexivity.
Qed.

Lemma body_undecodable (data : list byte) :
  lookup_entry "README.md" cwd = Some (File true data) ->
  decode data = None ->
  body cwd t =
    (Raise Exn.UnicodeDecodeError,
     t ++ [EvOpen "README.md"; EvRead "README.md"; EvClose "README.md"]).
Proof.
  intros H D.
  unfold with_open, open, finally, read, close, bind, emit, getcwd, raise.
  rewrite H. cbn. rewrite D. cbn.
  rewrite <- !app_assoc. reflexivity.
Qed.

(** The block raises FileNotFoundError only when the file is absent. *)
Lemma body_FileNotFoundError (t' : list event) :
  body cwd t = (Raise Exn.FileNotFoundError, t') ->
  lookup_entry "README.md" cwd = None.
Proof.
  destruct (lookup_entry "README.md" cwd) as [[[] data|es|kind]|] eqn:H; [| | | |reflexivity].
  - destruct (decode data) as [text|] eqn:D.
    + rewrite (body_text data text H D). discriminate.
    + rewrite (body_undecodable data H D). discriminate.
  - rewrite (body_denied data H). discriminate.
  - rewrite (body_directory es H). discriminate.
- rewrite (body_special kind H). destruct kind; discriminate.
Qed.
End ReadReadme.

(** ** The variable [long_description] and the call *)

Section Script.
Variables (cwd : directory) (t : list event).

Lemma long_description_absent :
  lookup_entry "README.md" cwd = None ->
  long_description cwd t =
    (Return "GitHub 仓库批量分类克隆脚本", t ++ [EvOpen "README.md"]).
Proof.
  intros H. unfold long_description.
  erewrite try_except_caught; [reflexivity | apply body_absent, H | reflexivity].
Qed.

Lemma long_description_text (data : list byte) (text : string) :
  lookup_entry "README.md" cwd = Some (File true data) ->
  decode data = Some text ->
  long_description cwd t =
    (Return text,
     t ++ [EvOpen "README.md"; EvRead "README.md"; EvClose "README.md"]).
Proof.
  intros H D. unfold long_description.
  apply try_except_return. eapply body_text; eassumption.
Qed.

(** An exception of the guarded block that is not FileNotFoundError
    leaves the [try] statement as it entered the clause. *)
Lemma long_description_uncaught (e : Exn.class) (t' : list event) :
  with_open "README.md" (fun fh => read fh) cwd t = (Raise e, t') ->
  e <> Exn.FileNotFoundError ->
  long_description cwd t = (Raise e, t').
Proof.
  intros H Hne. unfold long_description.
  apply try_except_uncaught; [exact H|].
  apply ExnFacts.not_caught_by_FileNotFoundError, Hne.
Qed.

Lemma setup_py_return (text : string) (t' : list event) :
  long_description cwd t = (Return text, t') ->
  setup_py cwd t =
    (Return (setup_arguments text (packages_in "" (Dir cwd))), t' ++ [EvWalk "."]).
Proof.
  intros H. unfold setup_py, bind. rewrite H. reflexivity.
Qed.

Lemma setup_py_raise (e : Exn.class) (t' : list event) :
  long_description cwd t = (Raise e, t') ->
  setup_py cwd t = (Raise e, t').
Proof.
  intros H. unfold setup_py, bind. rewrite H. reflexivity.
Qed.

(** When [setup] is called, its arguments are the ones written in the
    call, at the value [long_description] got. *)
Lemma setup_py_inv (args : Kwargs.t) :
  fst (setup_py cwd t) = Return args ->
  exists text,
    fst (long_description cwd t) = Return text /\
    args = setup_arguments text (packages_in "" (Dir cwd)).
Proof.
  destruct (long_description cwd t) as [[text|e] t'] eqn:H.
  - rewrite (setup_py_return text t' H). cbn. intros [= <-]. eauto.
  - rewrite (setup_py_raise e t' H). discriminate.
Qed.

(** The events of the variable's computation: the file is opened, and
    read and closed if the open succeeded. *)
Lemma long_description_events :
  snd (long_description cwd t) = t ++ [EvOpen "README.md"] \/
  snd (long_description cwd t) =
    t ++ [EvOpen "README.md"; EvRead "README.md"; EvClose "README.md"].
Proof.
  destruct (lookup_entry "README.md" cwd) as [[[] data|es|kind]|] eqn:H.
  - right. destruct (decode data) as [text|] eqn:D.
    + rewrite (long_description_text data text H D). reflexivity.
    + erewrite long_description_uncaught;
        [reflexivity | eapply body_undecodable; eassumption | discriminate].
  - left. erewrite long_description_uncaught;
      [reflexivity | eapply body_denied; eassumption | discriminate].
  - left. erewrite long_description_uncaught;
      [reflexivity | eapply body_directory; eassumption | discriminate].
  - left. erewrite long_description_uncaught;
      [reflexivity | eapply body_special; eassumption | destruct kind; discriminate].
  - left. rewrite (long_description_absent H). reflexivity.
Qed.

Lemma setup_py_events :
  exists done,
    snd (setup_py cwd t) = snd (long_description cwd t) ++ done /\
    (done = [] \/ done = [EvWalk "."]).
Proof.
  destruct (long_description cwd t) as [[text|e] t'] eqn:H.
  - rewrite (setup_py_return text t' H). cbn. eauto.
  - rewrite (setup_py_raise e t' H). cbn. exists []. rewrite app_nil_r. auto.
Qed.
End Script.

Lemma files_read_app (t1 t2 : list event) :
  files_read (t1 ++ t2) = files_read t1 ++ files_read t2.
Proof. unfold files_read. apply flat_map_app. Qed.

(** The script opens and reads README.md and nothing else. *)
Lemma setup_py_reads_readme_only (cwd : directory) (p : string) :
  In p (files_read (trace setup_py cwd)) -> p = "README.md".
Proof.
  unfold trace.
  destruct (setup_py_events cwd []) as (done & -> & Hdone).
  rewrite files_read_app, in_app_iff.
  intros [Hin|Hin].
  - destruct (long_description_events cwd []) as [E|E]; rewrite E in Hin;
      cbn in Hin; intuition congruence.
  - destruct Hdone as [-> | ->]; cbn in Hin; contradiction.
Qed.

Lemma setup_py_result (cwd : directory) (text : string) :
  result long_description cwd = Return text ->
  result setup_py cwd = Return (setup_arguments text (packages_in "" (Dir cwd))).
Proof.
  unfold result. destruct (long_description cwd []) as [r t'] eqn:H.
  cbn. intros ->. rewrite (setup_py_return _ _ _ _ H). reflexivity.
Qed.

Lemma setup_py_arguments (cwd : directory) (args : Kwargs.t) :
  result setup_py cwd = Return args ->
  exists text,
    result long_description cwd = Return text /\
    args = setup_arguments text (packages_in "" (Dir cwd)).
Proof. apply setup_py_inv. Qed.

(** [setup] receives the variable as its long_description. *)
Lemma setup_receives (cwd : directory) (text : string) :
  result long_description cwd = Return text ->
  exists args,
    result setup_py cwd = Return args /\ Kwargs.long_description args = text.
Proof.
  intros Hvar. eexists. split; [apply setup_py_result, Hvar | reflexivity].
Qed.

(** The variable is computed from the entry README.md alone. *)
Lemma long_description_agree (w1 w2 : directory) (t : list event) :
  agree_on_readme w1 w2 -> long_description w1 t = long_description w2 t.
Proof.
  unfold agree_on_readme. intros H.
  unfold long_description, try_except, with_open, open, finally, read, close,
    bind, emit, getcwd, raise, ret.
  cbn. rewrite H.
  destruct (lookup_entry "README.md" w2) as [[[] data|es|kind]|]; cbn; try reflexivity.
  destruct (decode data); reflexivity.
Qed.

(** ** Text mode on files without carriage returns *)

Lemma universal_newlines_without_cr (data : list byte) :
  existsb (Byte.eqb x0d) data = false -> universal_newlines data = data.
Proof.
  induction data as [|b rest IH]; [reflexivity|].
  cbn [existsb universal_newlines]. intros H. apply orb_false_elim in H as [Hb Hrest].
  destruct (Byte.eqb b x0d) eqn:E.
  - apply Byte.byte_dec_bl in E. subst b. discriminate Hb.
  - rewrite IH by assumption. reflexivity.
Qed.

(** A UTF-8 file without carriage returns reads as its bytes, unchanged. *)
Lemma decode_without_cr (data : list byte) :
  utf8_valid data = true ->
  existsb (Byte.eqb x0d) data = false ->
  decode data = Some (string_of_list_byte data).
Proof.
  intros V C. unfold decode. rewrite V, universal_newlines_without_cr by assumption.
  reflexivity.
Qed.

(** * The statements of the specification *)

(** ** The long description *)

(** C1, as stated, fails on a README with a carriage return: the file
    is well-formed UTF-8 and readable, [setup] is called, and the long
    description is not the contents of the file, its CR LF having
    become LF. *)
Lemma long_description_differs_on_carriage_return :
  lookup_entry "README.md" only_readme = Some (File true readme_bytes) /\
  utf8_valid readme_bytes = true /\
  result setup_py only_readme = Return (setup_arguments readme_text []) /\
  Kwargs.long_description (setup_arguments readme_text [])
    <> string_of_list_byte readme_bytes.
Proof.
  split; [reflexivity|]. split; [reflexivity|]. split; [reflexivity|].
  intros H. apply (f_equal String.length) in H. vm_compute in H. discriminate H.
Qed.

(** C1, amended: in a run where README.md is present and readable as
    UTF-8 text, [setup] is called and the long_description it receives
    is the contents of the file decoded as UTF-8 with every CR LF and
    lone CR turned into LF; it is the contents exactly when the file
    holds no carriage return. *)
Theorem long_description_is_decoded_readme (cwd : directory) (data : list byte) :
  lookup_entry "README.md" cwd = Some (File true data) ->
  utf8_valid data = true ->
  exists args,
    result setup_py cwd = Return args /\
    Kwargs.long_description args = string_of_list_byte (universal_newlines data) /\
    (existsb (Byte.eqb x0d) data = false ->
     Kwargs.long_description args = string_of_list_byte data).
Proof.
  intros Hfile Hvalid.
  assert (Htext : decode data = Some (string_of_list_byte (universal_newlines data))).
  { unfold decode. now rewrite Hvalid. }
  exists (setup_arguments (string_of_list_byte (universal_newlines data))
            (packages_in "" (Dir cwd))).
  split; [|split].
  - apply setup_py_result. unfold result.
    now rewrite (long_description_text cwd [] data _ Hfile Htext).
  - reflexivity.
  - intros Hcr. cbn [Kwargs.long_description setup_arguments].
    now rewrite (universal_newlines_without_cr data Hcr).
Qed.

Lemma long_description_is_decoded_readme_witness :
  lookup_entry "README.md" only_readme = Some (File true readme_bytes) /\
  utf8_valid readme_bytes = true /\
  exists args,
    result setup_py only_readme = Return args /\
    Kwargs.long_description args = readme_text.
Proof.
  split; [reflexivity|]. split; [reflexivity|].
  destruct (long_description_is_decoded_readme only_readme readme_bytes
              eq_refl eq_refl) as (args & Hrun & Htext & _).
  exists args. split; [exact Hrun | exact Htext].
Defined.

(** C2: in a run where README.md is absent, the open raises
    FileNotFoundError, the script does not fail, and the
    long_description [setup] receives is the literal fallback string. *)
Theorem fallback_when_readme_absent (cwd : directory) :
  lookup_entry "README.md" cwd = None ->
  result (with_open "README.md" (fun fh => read fh)) cwd
    = Raise Exn.FileNotFoundError /\
  result long_description cwd = Return "GitHub 仓库批量分类克隆脚本" /\
  exists args,
    result setup_py cwd = Return args /\
    Kwargs.long_description args = "GitHub 仓库批量分类克隆脚本".
Proof.
  intros Habsent.
  assert (Hvar : result long_description cwd = Return "GitHub 仓库批量分类克隆脚本").
  { unfold result. now rewrite (long_description_absent cwd [] Habsent). }
  split.
  - unfold result. now rewrite (body_absent cwd [] Habsent).
  - split; [exact Hvar | apply setup_receives, Hvar].
Qed.

Lemma fallback_when_readme_absent_witness :
  lookup_entry "README.md" no_readme = None /\
  result long_description no_readme = Return "GitHub 仓库批量分类克隆脚本".
Proof.
  split; [reflexivity|].
  exact (proj1 (proj2 (fallback_when_readme_absent no_readme eq_refl))).
Defined.

(** C3, as stated, fails on a README that is present and readable but
    is not UTF-8: the read raises UnicodeDecodeError, no string is
    produced and [setup] is not called. *)
Lemma readable_readme_without_description :
  lookup_entry "README.md" latin_readme = Some (File true [xff]) /\
  result long_description latin_readme = Raise Exn.UnicodeDecodeError /\
  result setup_py latin_readme = Raise Exn.UnicodeDecodeError.
Proof. repeat split. Qed.

(** C3, amended: whether README.md is absent, or present, readable and
    well-formed UTF-8, the computation of the description ends with a
    string, and the script goes on to call [setup] with it. *)
Theorem description_is_produced_for_utf8 (cwd : directory) :
  lookup_entry "README.md" cwd = None \/
  (exists data,
     lookup_entry "README.md" cwd = Some (File true data) /\
     utf8_valid data = true) ->
  exists text,
    result long_description cwd = Return text /\
    exists args,
      result setup_py cwd = Return args /\ Kwargs.long_description args = text.
Proof.
  intros [Habsent | (data & Hfile & Hvalid)].
  - exists "GitHub 仓库批量分类克隆脚本".
    assert (Hvar : result long_description cwd = Return "GitHub 仓库批量分类克隆脚本").
    { unfold result. now rewrite (long_description_absent cwd [] Habsent). }
    split; [exact Hvar | apply setup_receives, Hvar].
  - exists (string_of_list_byte (universal_newlines data)).
    assert (Htext : decode data = Some (string_of_list_byte (universal_newlines data))).
    { unfold decode. now rewrite Hvalid. }
    assert (Hvar : result long_description cwd
                   = Return (string_of_list_byte (universal_newlines data))).
    { unfold result. now rewrite (long_description_text cwd [] data _ Hfile Htext). }
    split; [exact Hvar | apply setup_receives, Hvar].
Qed.

Lemma description_is_produced_for_utf8_witness :
  exists text,
    result long_description readme_and_notes = Return text /\
    exists args,
      result setup_py readme_and_notes = Return args /\
      Kwargs.long_description args = text.
Proof.
  apply (description_is_produced_for_utf8 readme_and_notes).
  right. exists readme_bytes. split; reflexivity.
Defined.

(** ** The literal arguments *)

(** Every statement about a literal argument follows from the shape of
    the call. *)
Ltac by_the_call H :=
  apply setup_py_arguments in H as (? & _ & ->).

(** C4: the package registers one console entry point, and only that
    one: its name is repos and it dispatches to the callable main of the
    module main. *)
Theorem console_entry_point_is_repos (cwd : directory) (args : Kwargs.t) :
  result setup_py cwd = Return args ->
  Kwargs.entry_points args = {[ "console_scripts" := ["repos=main:main"] ]} /\
  map parse_entry_point (Kwargs.console_scripts args) =
    [Some {| ep_name := "repos"; ep_module := "main"; ep_attr := "main" |}].
Proof.
  intros H. by_the_call H. split; reflexivity.
Qed.

Lemma console_entry_point_is_repos_witness :
  result setup_py only_readme = Return (setup_arguments readme_text []) /\
  map parse_entry_point (Kwargs.console_scripts (setup_arguments readme_text [])) =
    [Some {| ep_name := "repos"; ep_module := "main"; ep_attr := "main" |}].
Proof.
  split; [reflexivity|].
  exact (proj2 (console_entry_point_is_repos only_readme
                  (setup_arguments readme_text []) eq_refl)).
Defined.

(** C6: the python_requires argument is ">=3.7", a lower bound that
    admits exactly the interpreter releases from 3.7 on. *)
Theorem python_requires_is_3_7_or_newer (cwd : directory) (args : Kwargs.t) :
  result setup_py cwd = Return args ->
  Kwargs.python_requires args = ">=3.7" /\
  forall v : list N,
    admits (Kwargs.python_requires args) v = release_leb [3; 7]%N v.
Proof.
  intros H. by_the_call H. split; [reflexivity|]. intros v. reflexivity.
Qed.

Lemma python_requires_is_3_7_or_newer_witness :
  result setup_py no_readme
    = Return (setup_arguments "GitHub 仓库批量分类克隆脚本" []) /\
  Kwargs.python_requires (setup_arguments "GitHub 仓库批量分类克隆脚本" []) = ">=3.7".
Proof.
  split; [reflexivity|].
  exact (proj1 (python_requires_is_3_7_or_newer no_readme
                  (setup_arguments "GitHub 仓库批量分类克隆脚本" []) eq_refl)).
Defined.

(** Releases compare as numbers, not as text: 3.12 is admitted, 3.6.9
    is not. *)
Example release_3_12_admitted : admits ">=3.7" [3; 12]%N = true.
Proof. reflexivity. Qed.

Example release_3_6_9_refused : admits ">=3.7" [3; 6; 9]%N = false.
Proof. reflexivity. Qed.

(** C7: install_requires is the one-element list ["colorama>=0.4.6"]:
    a single runtime dependency, on colorama. *)
Theorem install_requires_is_colorama (cwd : directory) (args : Kwargs.t) :
  result setup_py cwd = Return args ->
  Kwargs.install_requires args = ["colorama>=0.4.6"] /\
  map requirement_name (Kwargs.install_requires args) = ["colorama"].
Proof.
  intros H. by_the_call H. split; reflexivity.
Qed.

Lemma install_requires_is_colorama_witness :
  result setup_py readme_and_package
    = Return (setup_arguments readme_text ["core"]) /\
  Kwargs.install_requires (setup_arguments readme_text ["core"])
    = ["colorama>=0.4.6"].
Proof.
  split; [reflexivity|].
  exact (proj1 (install_requires_is_colorama readme_and_package
                  (setup_arguments readme_text ["core"]) eq_refl)).
Defined.

(** C10: whenever [setup] is called, long_description_content_type is
    "text/markdown"; this includes the runs without README.md, where
    the long description is the plain fallback string. *)
Theorem content_type_is_markdown (cwd : directory) (args : Kwargs.t) :
  result setup_py cwd = Return args ->
  Kwargs.long_description_content_type args = "text/markdown" /\
  (lookup_entry "README.md" cwd = None ->
   Kwargs.long_description args = "GitHub 仓库批量分类克隆脚本").
Proof.
  intros H. apply setup_py_arguments in H as (text & Hvar & ->).
  split; [reflexivity|].
  intros Habsent. unfold result in Hvar.
  rewrite (long_description_absent cwd [] Habsent) in Hvar.
  cbn in Hvar. now injection Hvar as <-.
Qed.

Lemma content_type_is_markdown_witness :
  result setup_py [] = Return (setup_arguments "GitHub 仓库批量分类克隆脚本" []) /\
  Kwargs.long_description_content_type
    (setup_arguments "GitHub 仓库批量分类克隆脚本" []) = "text/markdown" /\
  Kwargs.long_description
    (setup_arguments "GitHub 仓库批量分类克隆脚本" []) = "GitHub 仓库批量分类克隆脚本".
Proof.
  split; [reflexivity|].
  destruct (content_type_is_markdown []
              (setup_arguments "GitHub 仓库批量分类克隆脚本" []) eq_refl)
    as [Htype Hfallback].
  split; [exact Htype | exact (Hfallback eq_refl)].
Defined.

(** ** Errors other than a missing file *)

(** C8: the [except] clause handles the missing file and nothing else.
    When opening or reading README.md raises an exception that is not
    FileNotFoundError, the exception leaves the script: no string is
    substituted and [setup] is not called. *)
Theorem other_errors_propagate (cwd : directory) (e : Exn.class) :
  result (with_open "README.md" (fun fh => read fh)) cwd = Raise e ->
  e <> Exn.FileNotFoundError ->
  result long_description cwd = Raise e /\ result setup_py cwd = Raise e.
Proof.
  unfold result.
  destruct (with_open "README.md" (fun fh => read fh) cwd []) as [r t'] eqn:Hbody.
  cbn. intros -> Hne.
  pose proof (long_description_uncaught cwd [] e t' Hbody Hne) as Hvar.
  rewrite (setup_py_raise cwd [] e t' Hvar), Hvar. split; reflexivity.
Qed.

Lemma other_errors_propagate_witness :
  result (with_open "README.md" (fun fh => read fh)) denied_readme
    = Raise Exn.PermissionError /\
  result long_description denied_readme = Raise Exn.PermissionError /\
  result setup_py denied_readme = Raise Exn.PermissionError.
Proof.
  split; [reflexivity|].
  apply (other_errors_propagate denied_readme Exn.PermissionError);
    [reflexivity | discriminate].
Defined.

(** The same on a README that is not UTF-8, and on a directory of that
    name. *)
Example undecodable_readme_fails :
  result setup_py latin_readme = Raise Exn.UnicodeDecodeError.
Proof. reflexivity. Qed.

Example directory_readme_fails :
  result setup_py [("README.md", Dir [])] = Raise Exn.IsADirectoryError.
Proof. reflexivity. Qed.

(** A README that is a looping symbolic link: the plain OSError of the
    open is not caught either. *)
Example looping_readme_fails :
  result setup_py [("README.md", Other SymlinkLoop)] = Raise Exn.OSError.
Proof. reflexivity. Qed.

Example locked_directory_readme_fails :
  result setup_py [("README.md", Other LockedDirectory)] = Raise Exn.PermissionError.
Proof. reflexivity. Qed.

(** ** The two descriptions *)

(** C9: without README.md the arguments long_description and
    description are equal, both being the literal
    "GitHub 仓库批量分类克隆脚本". *)
Theorem descriptions_coincide_when_absent (cwd : directory) :
  lookup_entry "README.md" cwd = None ->
  exists args,
    result setup_py cwd = Return args /\
    Kwargs.long_description args = Kwargs.description args /\
    Kwargs.description args = "GitHub 仓库批量分类克隆脚本".
Proof.
  intros Habsent.
  exists (setup_arguments "GitHub 仓库批量分类克隆脚本" (packages_in "" (Dir cwd))).
  split; [|split; reflexivity].
  apply setup_py_result. unfold result.
  now rewrite (long_description_absent cwd [] Habsent).
Qed.

Lemma descriptions_coincide_when_absent_witness :
  exists args,
    result setup_py [("core", Dir [("__init__.py", File true [])])] = Return args /\
    Kwargs.long_description args = Kwargs.description args /\
    Kwargs.description args = "GitHub 仓库批量分类克隆脚本".
Proof.
  apply (descriptions_coincide_when_absent
           [("core", Dir [("__init__.py", File true [])])]).
  reflexivity.
Defined.

(** ** What the arguments depend on *)

(** C5, as stated, fails: two working directories with the same
    README.md, one of them holding a package directory, give different
    arguments, because [packages] is the value of [find_packages()]. *)
Lemma arguments_differ_with_same_readme :
  agree_on_readme only_readme readme_and_package /\
  result setup_py only_readme = Return (setup_arguments readme_text []) /\
  result setup_py readme_and_package = Return (setup_arguments readme_text ["core"]) /\
  result setup_py only_readme <> result setup_py readme_and_package.
Proof.
  split; [reflexivity|]. split; [reflexivity|]. split; [reflexivity|].
  intros H.
  assert (Hp : @nil string = ["core"]).
  { change (match result setup_py only_readme with
            | Return a => Kwargs.packages a
            | Raise _ => []
            end = ["core"]).
    rewrite H. reflexivity. }
  discriminate Hp.
Qed.

(** C5, amended: the arguments are a function of README.md and of the
    packages [find_packages()] discovers. Two runs that agree on both
    pass identical arguments, their long descriptions agreeing already
    when README.md does; and no file other than README.md is opened or
    read. *)
Theorem arguments_determined_by_readme_and_packages (w1 w2 : directory) :
  agree_on_readme w1 w2 ->
  packages_in "" (Dir w1) = packages_in "" (Dir w2) ->
  result setup_py w1 = result setup_py w2 /\
  result long_description w1 = result long_description w2 /\
  forall p,
    In p (files_read (trace setup_py w1) ++ files_read (trace setup_py w2)) ->
    p = "README.md".
Proof.
  intros Hreadme Hpackages.
  pose proof (long_description_agree w1 w2 [] Hreadme) as Hvar.
  split; [|split].
  - unfold result.
    destruct (long_description w2 []) as [[text|e] t'] eqn:H2.
    + rewrite (setup_py_return w1 [] text t' Hvar),
        (setup_py_return w2 [] text t' H2), Hpackages. reflexivity.
    + rewrite (setup_py_raise w1 [] e t' Hvar), (setup_py_raise w2 [] e t' H2).
      reflexivity.
  - unfold result. now rewrite Hvar.
  - intros p Hin. apply in_app_iff in Hin as [Hin|Hin];
      eapply setup_py_reads_readme_only; exact Hin.
Qed.

Lemma arguments_determined_by_readme_and_packages_witness :
  agree_on_readme only_readme readme_and_notes /\
  result setup_py only_readme = result setup_py readme_and_notes.
Proof.
  split; [reflexivity|].
  exact (proj1 (arguments_determined_by_readme_and_packages
                  only_readme readme_and_notes eq_refl eq_refl)).
Defined.

(** * Further properties of the script *)

(** ** Which runs reach the call *)



(** The outcome of the variable's computation, entry by entry. *)
Lemma long_description_outcome (cwd : directory) :
  result long_description cwd =
    match lookup_entry "README.md" cwd with
    | None => Return "GitHub 仓库批量分类克隆脚本"
    | Some (Dir _) => Raise Exn.IsADirectoryError
    | Some (Other kind) => Raise (open_error kind)
    | Some (File false _) => Raise Exn.PermissionError
    | Some (File true data) =>
        match decode data with
        | Some text => Return text
        | None => Raise Exn.UnicodeDecodeError
        end
    end.
Proof.
  unfold result.
  destruct (lookup_entry "README.md" cwd) as [[[] data|es|kind]|] eqn:H.
  - destruct (decode data) as [text|] eqn:D.
    + now rewrite (long_description_text cwd [] data text H D).
    + erewrite long_description_uncaught;
        [reflexivity | eapply body_undecodable; eassumption | discriminate].
  - erewrite long_description_uncaught;
      [reflexivity | eapply body_denied; eassumption | discriminate].
  - erewrite long_description_uncaught;
      [reflexivity | eapply body_directory; eassumption | discriminate].
  - erewrite long_description_uncaught;
      [reflexivity | eapply body_special; eassumption | destruct kind; discriminate].
  - now rewrite (long_description_absent cwd [] H).
Qed.

Lemma setup_py_outcome (cwd : directory) :
  result setup_py cwd =
    match result long_description cwd with
    | Return text => Return (setup_arguments text (packages_in "" (Dir cwd)))
    | Raise e => Raise e
    end.
Proof.
  unfold result. destruct (long_description cwd []) as [[text|e] t'] eqn:H; cbn.
  - now rewrite (setup_py_return cwd [] text t' H).
  - now rewrite (setup_py_raise cwd [] e t' H).
Qed.


(** X2: a run that fails fails with the very exception that opening or
    reading README.md raised, and that exception is never
    FileNotFoundError: the script adds no failure of its own and
    swallows none but the missing file. *)
Theorem failure_is_the_blocks_exception (cwd : directory) (e : Exn.class) :
  result setup_py cwd = Raise e ->
  e <> Exn.FileNotFoundError /\
  result (with_open "README.md" (fun fh => read fh)) cwd = Raise e.
Proof.
  rewrite setup_py_outcome. unfold result, long_description, try_except.
  destruct (with_open "README.md" (fun fh => read fh) cwd [])
    as [[text|e'] t'] eqn:Hbody; cbn [fst].
  - discriminate.
  - destruct (Exn.issubclass e' Exn.FileNotFoundError) eqn:Hsub.
    + unfold ret. cbn [fst]. discriminate.
    + cbn [fst]. intros [= <-]. split; [|reflexivity].
      intros ->. rewrite ExnFacts.issubclass_refl in Hsub. discriminate Hsub.
Qed.

Lemma failure_is_the_blocks_exception_witness :
  result setup_py [("README.md", Other SymlinkLoop)] = Raise Exn.OSError /\
  Exn.OSError <> Exn.FileNotFoundError /\
  result (with_open "README.md" (fun fh => read fh))
    [("README.md", Other SymlinkLoop)] = Raise Exn.OSError.
Proof.
  split; [reflexivity|].
  exact (failure_is_the_blocks_exception
           [("README.md", Other SymlinkLoop)] Exn.OSError eq_refl).
Defined.

(** ** What happens to the file, and when the directory is searched *)

(** X3: README.md is opened once. When the open succeeds the file is
    read once and then closed, also when its bytes do not decode; when
    the open fails nothing is read and nothing is closed. *)
Theorem readme_is_opened_once_and_closed (cwd : directory) :
  trace long_description cwd =
    match lookup_entry "README.md" cwd with
    | Some (File true _) =>
        [EvOpen "README.md"; EvRead "README.md"; EvClose "README.md"]
    | _ => [EvOpen "README.md"]
    end.
Proof.
  unfold trace.
  destruct (lookup_entry "README.md" cwd) as [[[] data|es|kind]|] eqn:H.
  - destruct (decode data) as [text|] eqn:D.
    + now rewrite (long_description_text cwd [] data text H D).
    + erewrite long_description_uncaught;
        [reflexivity | eapply body_undecodable; eassumption | discriminate].
  - erewrite long_description_uncaught;
      [reflexivity | eapply body_denied; eassumption | discriminate].
  - erewrite long_description_uncaught;
      [reflexivity | eapply body_directory; eassumption | discriminate].
  - erewrite long_description_uncaught;
      [reflexivity | eapply body_special; eassumption | destruct kind; discriminate].
  - now rewrite (long_description_absent cwd [] H).
Qed.

(** The file of the README that does not decode is closed all the
    same. *)
Example undecodable_readme_is_closed :
  trace setup_py latin_readme =
    [EvOpen "README.md"; EvRead "README.md"; EvClose "README.md"].
Proof. reflexivity. Qed.

(** X4: [find_packages()] runs after the long description is there and
    is the last thing the script does before the call; a run that
    fails never searches the directory. *)
Theorem directory_is_searched_last_or_never (cwd : directory) :
  trace setup_py cwd =
    trace long_description cwd ++
    match result setup_py cwd with
    | Return _ => [EvWalk "."]
    | Raise _ => []
    end.
Proof.
  unfold trace, result.
  destruct (long_description cwd []) as [[text|e] t'] eqn:H; cbn.
  - now rewrite (setup_py_return cwd [] text t' H).
  - rewrite (setup_py_raise cwd [] e t' H). cbn. now rewrite app_nil_r.
Qed.

(** ** The two arguments that are not literals *)

Section WalkFacts.
Variable prefix : string.

(** The walk, one level at a time. *)
Lemma packages_in_dir (es : list (string * node)) :
  packages_in prefix (Dir es) =
    flat_map (fun e => if is_package (fst e) (snd e)
                             && negb (always_excluded (prefix +:+ fst e))
                          then [prefix +:+ fst e]
                          else []) es
    ++ flat_map (fun e => if is_package (fst e) (snd e)
                          then packages_in (prefix +:+ fst e +:+ ".") (snd e)
                          else []) es.
Proof.
  cbn [packages_in]. f_equal.
  - induction es as [|[name child] rest IH]; [reflexivity|].
    cbn [flat_map fst snd]. now rewrite IH.
  - induction es as [|[name child] rest IH]; [reflexivity|].
    cbn [flat_map fst snd]. now rewrite IH.
Qed.
End WalkFacts.

(** Entries that contribute nothing may be left out. *)
Lemma flat_map_filter_nil {A B} (f : A -> list B) (keep : A -> bool) (l : list A) :
  (forall a, keep a = false -> f a = []) ->
  flat_map f (List.filter keep l) = flat_map f l.
Proof.
  intros Hnil. induction l as [|a l IH]; [reflexivity|].
  cbn [List.filter flat_map]. destruct (keep a) eqn:K.
  - cbn [flat_map]. now rewrite IH.
  - now rewrite (Hnil a K), IH.
Qed.

Lemma is_package_dotted (name : string) (n : node) :
  has_dot name = true -> is_package name n = false.
Proof. unfold is_package. now intros ->. Qed.

(** The excluded names are left out, their subpackages are not. *)
Example excluded_packages_are_left_out :
  packages_in ""
    (Dir [("ez_setup", Dir [("__init__.py", File true []);
                            ("sub", Dir [("__init__.py", File true [])])]);
          ("core", Dir [("__init__.py", File true []);
                        ("__pycache__", Dir [("__init__.py", File true [])])])])
  = ["core"; "ez_setup.sub"].
Proof. reflexivity. Qed.

(** A name with a dot is never a package: the walk does not see it. *)
Lemma packages_in_without (prefix name : string) (es : directory) :
  has_dot name = true ->
  packages_in prefix (Dir (without name es)) = packages_in prefix (Dir es).
Proof.
  intros Hdot. rewrite !packages_in_dir. unfold without.
  assert (Hskip : forall e : string * node,
             negb (String.eqb (fst e) name) = false ->
             is_package (fst e) (snd e) = false).
  { intros e He. apply negb_false_iff, String.eqb_eq in He. rewrite He.
    now apply is_package_dotted. }
  f_equal; apply flat_map_filter_nil; intros e He; now rewrite (Hskip e He).
Qed.

(** X5: the packages do not depend on README.md. Two runs whose working
    directories differ only in the entry README.md, and that both reach
    the call, pass the same arguments but for the long description. *)
Theorem packages_do_not_depend_on_readme
    (w1 w2 : directory) (a1 a2 : Kwargs.t) :
  without "README.md" w1 = without "README.md" w2 ->
  result setup_py w1 = Return a1 ->
  result setup_py w2 = Return a2 ->
  Kwargs.packages a1 = Kwargs.packages a2 /\
  a1 = setup_arguments (Kwargs.long_description a1) (Kwargs.packages a2).
Proof.
  intros Hrest H1 H2.
  apply setup_py_arguments in H1 as (t1 & _ & ->).
  apply setup_py_arguments in H2 as (t2 & _ & ->).
  cbn [Kwargs.packages Kwargs.long_description setup_arguments].
  assert (Hp : packages_in "" (Dir w1) = packages_in "" (Dir w2)).
  { rewrite <- (packages_in_without "" "README.md" w1),
            <- (packages_in_without "" "README.md" w2) by reflexivity.
    now rewrite Hrest. }
  now rewrite Hp.
Qed.

Lemma packages_do_not_depend_on_readme_witness :
  without "README.md" readme_and_package
    = without "README.md" [("core", Dir [("__init__.py", File true [])])] /\
  Kwargs.packages (setup_arguments readme_text ["core"])
    = Kwargs.packages (setup_arguments "GitHub 仓库批量分类克隆脚本" ["core"]).
Proof.
  split; [reflexivity|].
  exact (proj1 (packages_do_not_depend_on_readme
                  readme_and_package [("core", Dir [("__init__.py", File true [])])]
                  (setup_arguments readme_text ["core"])
                  (setup_arguments "GitHub 仓库批量分类克隆脚本" ["core"])
                  eq_refl eq_refl eq_refl)).
Defined.

(** ** The text [setup] receives *)

Lemma eqb_cr_sym (b : byte) : Byte.eqb b x0d = false -> Byte.eqb x0d b = false.
Proof.
  intros H. destruct (Byte.eqb x0d b) eqn:E; [|reflexivity].
  apply Byte.byte_dec_bl in E. subst b. discriminate H.
Qed.

Lemma universal_newlines_keeps (b : byte) (rest : list byte) :
  Byte.eqb b x0d = false ->
  universal_newlines (b :: rest) = b :: universal_newlines rest.
Proof. intros H. cbn [universal_newlines]. now rewrite H. Qed.

(** No carriage return is left in a text read with universal
    newlines. *)
Lemma universal_newlines_no_cr (data : list byte) :
  existsb (Byte.eqb x0d) (universal_newlines data) = false.
Proof.
  remember (length data) as n eqn:Hn.
  assert (Hlen : (length data <= n)%nat) by lia. clear Hn.
  revert data Hlen.
  induction n as [|n IH]; intros [|b rest] Hlen; cbn [length] in Hlen;
    try reflexivity; try lia.
  cbn [universal_newlines]. destruct (Byte.eqb b x0d) eqn:E.
  - cbn [existsb]. change (Byte.eqb x0d x0a) with false. cbn [orb].
    destruct rest as [|b' rest']; [reflexivity|].
    destruct (Byte.eqb b' x0a); apply IH; cbn [length] in *; lia.
  - cbn [existsb]. rewrite (eqb_cr_sym b E). apply IH. lia.
Qed.

(** Bytes from 80 on are not the carriage return. *)
Lemma high_byte_not_cr (b : byte) :
  between 0x00 0x7F b = false -> Byte.eqb b x0d = false.
Proof.
  intros H. destruct (Byte.eqb b x0d) eqn:E; [|reflexivity].
  apply Byte.byte_dec_bl in E. subst b. discriminate H.
Qed.

Lemma between_high (lo hi : N) (b : byte) :
  (0x80 <= lo)%N -> between lo hi b = true -> between 0x00 0x7F b = false.
Proof.
  unfold between. intros Hlo H.
  apply andb_true_iff in H as [H1 _]. apply N.leb_le in H1.
  apply andb_false_iff. right. apply N.leb_gt. lia.
Qed.

Lemma continuation_high (b : byte) :
  continuation b = true -> between 0x00 0x7F b = false.
Proof. apply between_high. lia. Qed.

Lemma second_of_three_high (b0 b1 : byte) :
  second_of_three b0 b1 = true -> between 0x00 0x7F b1 = false.
Proof.
  unfold second_of_three, continuation.
  destruct (between 0xE0 0xE0 b0); [|destruct (between 0xED 0xED b0)];
    apply between_high; lia.
Qed.

Lemma second_of_four_high (b0 b1 : byte) :
  second_of_four b0 b1 = true -> between 0x00 0x7F b1 = false.
Proof.
  unfold second_of_four, continuation.
  destruct (between 0xF0 0xF0 b0); [|destruct (between 0xF4 0xF4 b0)];
    apply between_high; lia.
Qed.

(** Universal newlines keep well-formed UTF-8 well-formed. *)
Lemma universal_newlines_utf8 (data : list byte) :
  utf8_valid data = true -> utf8_valid (universal_newlines data) = true.
Proof.
  remember (length data) as n eqn:Hn.
  assert (Hlen : (length data <= n)%nat) by lia. clear Hn.
  revert data Hlen.
  induction n as [|n IH]; intros [|b0 r0] Hlen; cbn [length] in Hlen;
    try reflexivity; try lia.
  cbn [utf8_valid]. destruct (between 0x00 0x7F b0) eqn:A0.
  - (* one byte *)
    intros V. destruct (Byte.eqb b0 x0d) eqn:E.
    + cbn [universal_newlines]. rewrite E.
      destruct r0 as [|b' rest']; [reflexivity|].
      destruct (Byte.eqb b' x0a) eqn:E'.
      * apply Byte.byte_dec_bl in E'. subst b'.
        change (utf8_valid (x0a :: rest')) with (utf8_valid rest') in V.
        change (utf8_valid (x0a :: universal_newlines rest'))
          with (utf8_valid (universal_newlines rest')).
        apply IH; [cbn [length] in Hlen; lia | exact V].
      * change (utf8_valid (x0a :: universal_newlines (b' :: rest')))
          with (utf8_valid (universal_newlines (b' :: rest'))).
        apply IH; [lia | exact V].
    + rewrite (universal_newlines_keeps b0 r0 E). cbn [utf8_valid].
      rewrite A0. apply IH; [lia | exact V].
  - pose proof (high_byte_not_cr b0 A0) as E0.
    destruct r0 as [|b1 r1]; [discriminate|].
    destruct (between 0xC2 0xDF b0) eqn:A1.
    + (* two bytes *)
      intros V. apply andb_true_iff in V as [C1 V].
      pose proof (high_byte_not_cr b1 (continuation_high b1 C1)) as E1.
      rewrite (universal_newlines_keeps b0 _ E0), (universal_newlines_keeps b1 _ E1).
      cbn [utf8_valid]. rewrite A0, A1, C1. cbn [andb].
      apply IH; [cbn [length] in Hlen; lia | exact V].
    + destruct r1 as [|b2 r2]; [discriminate|].
      destruct (between 0xE0 0xEF b0) eqn:A2.
      * (* three bytes *)
        intros V. apply andb_true_iff in V as [V V2].
        apply andb_true_iff in V as [S1 C2].
        pose proof (high_byte_not_cr b1 (second_of_three_high b0 b1 S1)) as E1.
        pose proof (high_byte_not_cr b2 (continuation_high b2 C2)) as E2.
        rewrite (universal_newlines_keeps b0 _ E0), (universal_newlines_keeps b1 _ E1),
          (universal_newlines_keeps b2 _ E2).
        cbn [utf8_valid]. rewrite A0, A1, A2, S1, C2. cbn [andb].
        apply IH; [cbn [length] in Hlen; lia | exact V2].
      * (* four bytes *)
        destruct r2 as [|b3 r3]; [discriminate|].
        intros V. apply andb_true_iff in V as [V V3].
        apply andb_true_iff in V as [V C3].
        apply andb_true_iff in V as [V C2].
        apply andb_true_iff in V as [A3 S1].
        pose proof (high_byte_not_cr b1 (second_of_four_high b0 b1 S1)) as E1.
        pose proof (high_byte_not_cr b2 (continuation_high b2 C2)) as E2.
        pose proof (high_byte_not_cr b3 (continuation_high b3 C3)) as E3.
        rewrite (universal_newlines_keeps b0 _ E0), (universal_newlines_keeps b1 _ E1),
          (universal_newlines_keeps b2 _ E2), (universal_newlines_keeps b3 _ E3).
        cbn [utf8_valid]. rewrite A0, A1, A2, A3, S1, C2, C3. cbn [andb].
        apply IH; [cbn [length] in Hlen; lia | exact V3].
Qed.

(** What the variable can hold: the fallback literal, or the text of
    well-formed UTF-8 bytes after universal newlines. *)
Lemma long_description_shape (cwd : directory) (text : string) :
  result long_description cwd = Return text ->
  text = "GitHub 仓库批量分类克隆脚本" \/
  exists data,
    lookup_entry "README.md" cwd = Some (File true data) /\
    utf8_valid data = true /\
    text = string_of_list_byte (universal_newlines data).
Proof.
  rewrite long_description_outcome.
  destruct (lookup_entry "README.md" cwd) as [[[] data|es|kind]|]; try discriminate.
  - unfold decode. destruct (utf8_valid data) eqn:V; [|discriminate].
    intros [= <-]. right. exists data. auto.
  - intros [= <-]. now left.
Qed.

(** X6: the long description [setup] receives holds no carriage return:
    the file is read in text mode, where CR LF and CR are line ends and
    come out as LF. *)
Theorem long_description_has_no_carriage_return
    (cwd : directory) (args : Kwargs.t) :
  result setup_py cwd = Return args ->
  existsb (Byte.eqb x0d) (list_byte_of_string (Kwargs.long_description args)) = false.
Proof.
  intros H. apply setup_py_arguments in H as (text & Hvar & ->).
  cbn [Kwargs.long_description setup_arguments].
  apply long_description_shape in Hvar as [-> | (data & _ & _ & ->)].
  - reflexivity.
  - rewrite list_byte_of_string_of_list_byte. apply universal_newlines_no_cr.
Qed.

Lemma long_description_has_no_carriage_return_witness :
  existsb (Byte.eqb x0d) readme_bytes = true /\
  result setup_py only_readme = Return (setup_arguments readme_text []) /\
  existsb (Byte.eqb x0d) (list_byte_of_string readme_text) = false.
Proof.
  split; [reflexivity|]. split; [reflexivity|].
  exact (long_description_has_no_carriage_return only_readme
           (setup_arguments readme_text []) eq_refl).
Defined.

(** X7: the long description [setup] receives is well-formed UTF-8,
    whatever bytes README.md holds: ill-formed bytes end the script at
    the read, and the fallback literal is well-formed. *)
Theorem long_description_is_utf8 (cwd : directory) (args : Kwargs.t) :
  result setup_py cwd = Return args ->
  utf8_valid (list_byte_of_string (Kwargs.long_description args)) = true.
Proof.
  intros H. apply setup_py_arguments in H as (text & Hvar & ->).
  cbn [Kwargs.long_description setup_arguments].
  apply long_description_shape in Hvar as [-> | (data & _ & V & ->)].
  - reflexivity.
  - rewrite list_byte_of_string_of_list_byte. now apply universal_newlines_utf8.
Qed.

Lemma long_description_is_utf8_witness :
  result setup_py readme_and_package = Return (setup_arguments readme_text ["core"]) /\
  utf8_valid (list_byte_of_string readme_text) = true.
Proof.
  split; [reflexivity|].
  exact (long_description_is_utf8 readme_and_package
           (setup_arguments readme_text ["core"]) eq_refl).
Defined.

(** ** Arguments that have to fit together *)

(** X8: the module every console script dispatches to is one of the
    modules the package ships in py_modules. *)
Theorem console_script_module_is_shipped
    (cwd : directory) (args : Kwargs.t) (spec : string) (ep : entry_point) :
  result setup_py cwd = Return args ->
  In spec (Kwargs.console_scripts args) ->
  parse_entry_point spec = Some ep ->
  In (ep_module ep) (Kwargs.py_modules args).
Proof.
  intros H Hin Hparse. apply setup_py_arguments in H as (text & _ & ->).
  change (Kwargs.console_scripts (setup_arguments text (packages_in "" (Dir cwd))))
    with ["repos=main:main"] in Hin.
  destruct Hin as [<- | []].
  injection Hparse as <-. now left.
Qed.

Lemma console_script_module_is_shipped_witness :
  In "main" (Kwargs.py_modules (setup_arguments readme_text [])).
Proof.
  exact (console_script_module_is_shipped only_readme
           (setup_arguments readme_text []) "repos=main:main"
           {| ep_name := "repos"; ep_module := "main"; ep_attr := "main" |}
           eq_refl (or_introl eq_refl) eq_refl).
Defined.

(** X9: the classifiers and python_requires agree. Every classifier
    that names a minor release of Python names one python_requires
    admits, and the lower bound of python_requires is itself among the
    releases the classifiers name. *)
Theorem classifiers_fit_python_requires (cwd : directory) (args : Kwargs.t) :
  result setup_py cwd = Return args ->
  (forall c v,
     In c (Kwargs.classifiers args) ->
     classifier_release c = Some v ->
     (2 <= length v)%nat ->
     admits (Kwargs.python_requires args) v = true) /\
  (exists m,
     minimum_release (Kwargs.python_requires args) = Some m /\
     In (Some m) (map classifier_release (Kwargs.classifiers args))).
Proof.
  intros H. apply setup_py_arguments in H as (text & _ & ->).
  cbn [Kwargs.classifiers Kwargs.python_requires setup_arguments]. split.
  - intros c v Hin Hv Hlen. cbn [In] in Hin.
    repeat (destruct Hin as [<- | Hin];
            [ vm_compute in Hv; try discriminate Hv; injection Hv as <-;
              first [reflexivity | cbn [length] in Hlen; lia] | ]).
    contradiction.
  - exists [3; 7]%N. split; [reflexivity|]. vm_compute. tauto.
Qed.

Lemma classifiers_fit_python_requires_witness :
  result setup_py no_readme
    = Return (setup_arguments "GitHub 仓库批量分类克隆脚本" []) /\
  admits ">=3.7" [3; 10]%N = true.
Proof.
  split; [reflexivity|].
  exact (proj1 (classifiers_fit_python_requires no_readme
                  (setup_arguments "GitHub 仓库批量分类克隆脚本" []) eq_refl)
           "Programming Language :: Python :: 3.10" [3; 10]%N
           ltac:(cbn; tauto) eq_refl (le_n 2)).
Defined.
